(** * Path authorization for the Bitcoin app: core/src/apps/bitcoin/keychain.py

    A shallow embedding of [validate_input_script_type],
    [get_schemas_for_coin], [get_coin_by_name], [get_keychain_for_coin] and
    [with_keychain], with the properties the design document states about
    them. *)

From Stdlib Require Import List String Ascii ZArith Bool Lia.
Import ListNotations.
Open Scope string_scope.
Open Scope Z_scope.

(** ** Data model *)

(** [coininfo.CoinInfo], restricted to the attributes keychain.py reads. *)
Record CoinInfo : Type := mkCoinInfo {
  coin_name : string;
  slip44 : Z;
  curve_name : string;
  segwit : bool;
  fork_id : option Z
}.

(** [trezor.messages.InputScriptType], the members keychain.py names. *)
Inductive InputScriptType : Type :=
| SPENDADDRESS
| SPENDMULTISIG
| SPENDP2SHWITNESS
| SPENDWITNESS.

Definition InputScriptType_eqb (a b : InputScriptType) : bool :=
  match a, b with
  | SPENDADDRESS, SPENDADDRESS
  | SPENDMULTISIG, SPENDMULTISIG
  | SPENDP2SHWITNESS, SPENDP2SHWITNESS
  | SPENDWITNESS, SPENDWITNESS => true
  | _, _ => false
  end.

(** What [getattr(msg, "multisig", False)] can find: no such attribute, the
    attribute set to [None], or a multisig descriptor object. *)
Inductive MultisigAttr : Type :=
| AttrMissing
| AttrNone
| AttrObject.

(** [bool(getattr(msg, "multisig", False))]. *)
Definition multisig_truth (a : MultisigAttr) : bool :=
  match a with
  | AttrObject => true
  | AttrMissing | AttrNone => false
  end.

(** [MsgWithAddressScriptType] plus the optional [multisig] attribute. *)
Record MsgWithAddressScriptType : Type := mkMsg {
  address_n : list Z;
  script_type : option InputScriptType;
  multisig : MultisigAttr
}.

(** [PathSchema(pattern, slip44_id)]: a template and the coin type it is
    bound to. *)
Record PathSchema : Type := mkPathSchema {
  schema_pattern : string;
  schema_slip44_id : Z
}.

(** ** Patterns declared in keychain.py *)

Definition PATTERN_BIP45 : string := "m/45'/[0-100]/change/address_index".
Definition PATTERN_PURPOSE48 : string :=
  "m/48'/coin_type'/account'/[0,1,2]'/change/address_index".
Definition PATTERN_BIP49 : string :=
  "m/49'/coin_type'/account'/change/address_index".
Definition PATTERN_BIP84 : string :=
  "m/84'/coin_type'/account'/change/address_index".

Definition PATTERN_GREENADDRESS_A : string := "m/[1,4]/address_index".
Definition PATTERN_GREENADDRESS_B : string :=
  "m/3'/[1-100]'/[1,4]/address_index".
Definition PATTERN_GREENADDRESS_SIGN_A : string := "m/1195487518".
Definition PATTERN_GREENADDRESS_SIGN_B : string :=
  "m/1195487518/6/address_index".

Definition PATTERN_CASA : string :=
  "m/49/coin_type/account/change/address_index".

(** [x in names] for a tuple of strings. *)
Definition name_in (x : string) (names : list string) : bool :=
  existsb (String.eqb x) names.

(** ** The validator and the schema set builder *)

Section Keychain.

(** Imported by keychain.py from modules that are not part of the sources
    at hand: the BIP-44 template and the matcher of [apps.common.paths],
    and the name tuple of [apps.bitcoin.common]. *)
Variable PATTERN_BIP44 : string.
Variable BITCOIN_NAMES : list string.
Variable PathSchema_match : PathSchema -> list Z -> bool.

(** [msg.script_type or I.SPENDADDRESS] *)
Definition effective_script_type (msg : MsgWithAddressScriptType)
  : InputScriptType :=
  match script_type msg with
  | Some t => t
  | None => SPENDADDRESS
  end.

(** The [patterns] list of [validate_input_script_type] as it stands just
    before the final [any(...)]. *)
Definition validate_patterns (coin : CoinInfo)
    (msg : MsgWithAddressScriptType) : list string :=
  let script_type := effective_script_type msg in
  let multisig := multisig_truth (multisig msg) in
  let bitcoin := name_in (coin_name coin) BITCOIN_NAMES in
  if InputScriptType_eqb script_type SPENDADDRESS && negb multisig then
    [PATTERN_BIP44]
    ++ (if bitcoin
        then [PATTERN_GREENADDRESS_A; PATTERN_GREENADDRESS_B] else [])
  else if (InputScriptType_eqb script_type SPENDADDRESS
           || InputScriptType_eqb script_type SPENDMULTISIG) && multisig then
    [PATTERN_BIP45; PATTERN_PURPOSE48]
    ++ (if bitcoin
        then [PATTERN_GREENADDRESS_A; PATTERN_GREENADDRESS_B] else [])
  else if segwit coin && InputScriptType_eqb script_type SPENDP2SHWITNESS then
    [PATTERN_BIP49]
    ++ (if multisig then [PATTERN_PURPOSE48] else [])
    ++ (if bitcoin
        then [PATTERN_GREENADDRESS_A; PATTERN_GREENADDRESS_B; PATTERN_CASA]
        else [])
  else if segwit coin && InputScriptType_eqb script_type SPENDWITNESS then
    [PATTERN_BIP84]
    ++ (if multisig then [PATTERN_PURPOSE48] else [])
    ++ (if bitcoin
        then [PATTERN_GREENADDRESS_A; PATTERN_GREENADDRESS_B] else [])
  else [].

Definition validate_input_script_type (coin : CoinInfo)
    (msg : MsgWithAddressScriptType) : bool :=
  existsb
    (fun pattern =>
       PathSchema_match (mkPathSchema pattern (slip44 coin)) (address_n msg))
    (validate_patterns coin msg).

(** The three stages of the [patterns] list of [get_schemas_for_coin]. *)
Definition basic_patterns : list string :=
  [PATTERN_BIP44; PATTERN_BIP45; PATTERN_PURPOSE48].

Definition compatibility_patterns (coin : CoinInfo) : list string :=
  if name_in (coin_name coin) BITCOIN_NAMES then
    [PATTERN_GREENADDRESS_A; PATTERN_GREENADDRESS_B;
     PATTERN_GREENADDRESS_SIGN_A; PATTERN_GREENADDRESS_SIGN_B;
     PATTERN_CASA]
  else [].

Definition segwit_patterns (coin : CoinInfo) : list string :=
  if segwit coin then [PATTERN_BIP49; PATTERN_BIP84] else [].

Definition schema_patterns (coin : CoinInfo) : list string :=
  basic_patterns ++ compatibility_patterns coin ++ segwit_patterns coin.

Definition get_schemas_for_coin (coin : CoinInfo) : list PathSchema :=
  let patterns := schema_patterns coin in
  let schemas :=
    map (fun pattern => mkPathSchema pattern (slip44 coin)) patterns in
  match fork_id coin with
  | Some _ => schemas ++ map (fun pattern => mkPathSchema pattern 0) patterns
  | None => schemas
  end.

End Keychain.

(** ** Coin resolution *)

(** The exceptions that keychain.py raises, catches or lets through.
    [GeneratorExit] is what a cancelled task receives at the [await] it is
    suspended on. *)
Inductive Exn : Type :=
| DataError (message : string)
| ValueError
| GeneratorExit
| OtherException (tag : Z).

Section CoinResolution.

(** [coininfo.by_name]: the registry lookup, which raises for a name it
    does not know. *)
Variable by_name : string -> Exn + CoinInfo.

Definition get_coin_by_name (coin_name : option string) : Exn + CoinInfo :=
  let coin_name :=
    match coin_name with
    | None => "Bitcoin"
    | Some n => n
    end in
  match by_name coin_name with
  | inr coin => inr coin
  | inl ValueError => inl (DataError "Unsupported coin type")
  | inl e => inl e
  end.

End CoinResolution.

(** ** The dispatcher *)

Section Dispatcher.

(** Opaque to keychain.py: the wire context, the request (of which only
    [coin_name] is read), the keychain, the authorization (of which only
    [keychain] is read) and the handler's response. *)
Variables Ctx MsgIn Keychain CoinJoinAuthorization MsgOut : Type.
Variable msg_coin_name : MsgIn -> option string.
Variable authorization_keychain : CoinJoinAuthorization -> Keychain.

Variable PATTERN_BIP44 : string.
Variable BITCOIN_NAMES : list string.
Variable by_name : string -> Exn + CoinInfo.

(** Calls that leave keychain.py: [get_keychain], the keychain's
    [__enter__] and [__exit__] run by the [with] statement, and the wrapped
    handler [func]; its last argument is absent in the four-argument call. *)
Inductive Call : Type :=
| GetKeychain (ctx : Ctx) (curve_name : string) (schemas : list PathSchema)
    (slip21_namespaces : list (list string))
| KeychainEnter (keychain : Keychain)
| KeychainExit (keychain : Keychain) (exc : option Exn)
| CallFunc (ctx : Ctx) (msg : MsgIn) (keychain : Keychain) (coin : CoinInfo)
    (authorization : option CoinJoinAuthorization).

(** What each call returns when it does not raise. *)
Definition Resp (c : Call) : Type :=
  match c with
  | GetKeychain _ _ _ _ => Keychain
  | KeychainEnter _ => unit
  | KeychainExit _ _ => bool
  | CallFunc _ _ _ _ _ => MsgOut
  end.

(** The call log: calls that left the module, and evaluations of
    [get_schemas_for_coin] inside it. *)
Inductive Event : Type :=
| Called (c : Call)
| BuiltSchemas (coin : CoinInfo).

(** A run of module code: it returns, raises, evaluates the schema
    builder, or makes a call and goes on with its outcome. *)
Inductive Prog (R : Type) : Type :=
| Return (r : R)
| Raise (e : Exn)
| Mark (coin : CoinInfo) (k : Prog R)
| Do (c : Call) (k : Exn + Resp c -> Prog R).

Arguments Return {R} r.
Arguments Raise {R} e.
Arguments Mark {R} coin k.
Arguments Do {R} c k.

Fixpoint bind {A B : Type} (p : Prog A) (f : A -> Prog B) : Prog B :=
  match p with
  | Return a => f a
  | Raise e => Raise e
  | Mark coin k => Mark coin (bind k f)
  | Do c k => Do c (fun o => bind (k o) f)
  end.

(** A call whose exception, if any, is not caught. *)
Definition call (c : Call) : Prog (Resp c) :=
  Do c (fun o => match o with
                 | inl e => Raise e
                 | inr x => Return x
                 end).

Definition lift {A : Type} (r : Exn + A) : Prog A :=
  match r with
  | inl e => Raise e
  | inr a => Return a
  end.

(** [await get_keychain(ctx, curve_name, schemas, slip21_namespaces)] *)
Definition get_keychain (ctx : Ctx) (curve_name : string)
    (schemas : list PathSchema) (slip21_namespaces : list (list string))
  : Prog Keychain :=
  call (GetKeychain ctx curve_name schemas slip21_namespaces).

(** [await func(ctx, msg, keychain, coin)] and
    [await func(ctx, msg, keychain, coin, authorization)] *)
Definition func (ctx : Ctx) (msg : MsgIn) (keychain : Keychain)
    (coin : CoinInfo) (authorization : option CoinJoinAuthorization)
  : Prog MsgOut :=
  call (CallFunc ctx msg keychain coin authorization).

Local Notation "x <- p ;; q" := (bind p (fun x => q))
  (at level 61, p at next level, right associativity).

(** The body of a [with keychain:] block once [__enter__] has returned.
    [__exit__] runs when the body returns and when it raises; a true result
    of [__exit__] swallows the body's exception, and control then falls off
    the end of the function, which returns [None]. *)
Fixpoint with_body {R : Type} (keychain : Keychain) (body : Prog R)
  : Prog (option R) :=
  match body with
  | Return r =>
      Do (KeychainExit keychain None)
         (fun o => match o with
                   | inl e' => Raise e'
                   | inr _ => Return (Some r)
                   end)
  | Raise e =>
      Do (KeychainExit keychain (Some e))
         (fun o => match o with
                   | inl e' => Raise e'
                   | inr true => Return None
                   | inr false => Raise e
                   end)
  | Mark coin k => Mark coin (with_body keychain k)
  | Do c k => Do c (fun o => with_body keychain (k o))
  end.

(** [with keychain: body] *)
Definition with_ {R : Type} (keychain : Keychain) (body : Prog R)
  : Prog (option R) :=
  Do (KeychainEnter keychain)
     (fun o => match o with
               | inl e => Raise e
               | inr _ => with_body keychain body
               end).

Definition get_keychain_for_coin (ctx : Ctx) (coin_name : option string)
  : Prog (Keychain * CoinInfo) :=
  coin <- lift (get_coin_by_name by_name coin_name) ;;
  Mark coin
    (let schemas := get_schemas_for_coin PATTERN_BIP44 BITCOIN_NAMES coin in
     let slip21_namespaces := [["SLIP-0019"]] in
     keychain <- get_keychain ctx (curve_name coin) schemas
                   slip21_namespaces ;;
     Return (keychain, coin)).

(** The [wrapper] that [with_keychain(func)] returns; [func] is reached
    through [CallFunc]. *)
Definition wrapper (ctx : Ctx) (msg : MsgIn)
    (authorization : option CoinJoinAuthorization) : Prog (option MsgOut) :=
  match authorization with
  | Some a =>
      let keychain := authorization_keychain a in
      coin <- lift (get_coin_by_name by_name (msg_coin_name msg)) ;;
      r <- func ctx msg keychain coin (Some a) ;;
      Return (Some r)
  | None =>
      kc <- get_keychain_for_coin ctx (msg_coin_name msg) ;;
      let '(keychain, coin) := kc in
      with_ keychain (func ctx msg keychain coin None)
  end.

(** *** Running a program against its surroundings *)

(** The surroundings answer every call, with a value or an exception, and
    may change state while doing so. *)
Variable World : Type.
Variable respond : forall c : Call, World -> (Exn + Resp c) * World.

Record Outcome (R : Type) : Type := mkOutcome {
  result : Exn + R;
  log : list Event;
  final : World
}.

Arguments mkOutcome {R} result log final.
Arguments result {R} o.
Arguments log {R} o.
Arguments final {R} o.

Definition logged {R : Type} (ev : Event) (o : Outcome R) : Outcome R :=
  mkOutcome (result o) (ev :: log o) (final o).

Fixpoint run {R : Type} (p : Prog R) (w : World) : Outcome R :=
  match p with
  | Return r => mkOutcome (inr r) [] w
  | Raise e => mkOutcome (inl e) [] w
  | Mark coin k => logged (BuiltSchemas coin) (run k w)
  | Do c k =>
      let '(o, w') := respond c w in
      logged (Called c) (run (k o) w')
  end.

(** Entries of a log that are calls of the handler. *)
Definition is_func_call (ev : Event) : bool :=
  match ev with
  | Called (CallFunc _ _ _ _ _) => true
  | _ => false
  end.

Definition is_acquisition (ev : Event) : bool :=
  match ev with
  | Called (GetKeychain _ _ _ _) => true
  | _ => false
  end.

Definition is_schema_build (ev : Event) : bool :=
  match ev with
  | BuiltSchemas _ => true
  | _ => false
  end.

End Dispatcher.

Arguments GetKeychain {Ctx MsgIn Keychain CoinJoinAuthorization}
  ctx curve_name schemas slip21_namespaces.
Arguments KeychainEnter {Ctx MsgIn Keychain CoinJoinAuthorization} keychain.
Arguments KeychainExit {Ctx MsgIn Keychain CoinJoinAuthorization}
  keychain exc.
Arguments CallFunc {Ctx MsgIn Keychain CoinJoinAuthorization}
  ctx msg keychain coin authorization.
Arguments Called {Ctx MsgIn Keychain CoinJoinAuthorization} c.
Arguments BuiltSchemas {Ctx MsgIn Keychain CoinJoinAuthorization} coin.
Arguments result {Ctx MsgIn Keychain CoinJoinAuthorization World R} o.
Arguments log {Ctx MsgIn Keychain CoinJoinAuthorization World R} o.
Arguments final {Ctx MsgIn Keychain CoinJoinAuthorization World R} o.
Arguments is_func_call {Ctx MsgIn Keychain CoinJoinAuthorization} ev.
Arguments is_acquisition {Ctx MsgIn Keychain CoinJoinAuthorization} ev.
Arguments is_schema_build {Ctx MsgIn Keychain CoinJoinAuthorization} ev.

(** The exception an outcome carries, as [__exit__] is told about it. *)
Definition raised {A : Type} (o : Exn + A) : option Exn :=
  match o with
  | inl e => Some e
  | inr _ => None
  end.

(** ** The path matcher of apps.common.paths *)

(** Modelled from the spec: [PathSchema.match] and the template grammar live
    in apps/common/paths.py, which is not among the sources.  The spec's
    interface section gives the grammar: a template is a slash-separated
    sequence of segments; a segment is a literal unsigned integer, a named
    placeholder, an inclusive range [[a-b]] or an explicit set [[a,b,c]],
    each optionally hardened by a trailing apostrophe; [coin_type] must equal
    the schema's reference coin type and the other placeholders accept any
    value; a path matches iff it has as many segments as the template and
    each one satisfies its element, hardened flag included.  The leading [m]
    of the templates in keychain.py stands for the root and takes no
    segment.  A hardened path segment has bit 31 set. *)
Definition HARDENED : Z := 2147483648.

Inductive Constraint : Type :=
| OneOf (values : list Z)
| Between (lo hi : Z)
| CoinType
| Placeholder.

Record Element : Type := mkElement {
  element_constraint : Constraint;
  element_hardened : bool
}.

Fixpoint split_on (sep : ascii) (s : string) : list string :=
  match s with
  | EmptyString => [EmptyString]
  | String c rest =>
      if Ascii.eqb c sep then EmptyString :: split_on sep rest
      else match split_on sep rest with
           | [] => [String c EmptyString]
           | h :: t => String c h :: t
           end
  end.

Definition digit_of (c : ascii) : option Z :=
  let n := Z.of_nat (nat_of_ascii c) in
  if (48 <=? n) && (n <=? 57) then Some (n - 48) else None.

Fixpoint parse_decimal_from (acc : Z) (s : string) : option Z :=
  match s with
  | EmptyString => Some acc
  | String c rest =>
      match digit_of c with
      | Some d => parse_decimal_from (10 * acc + d) rest
      | None => None
      end
  end.

Definition parse_decimal (s : string) : option Z :=
  match s with
  | EmptyString => None
  | _ => parse_decimal_from 0 s
  end.

Fixpoint parse_decimals (l : list string) : option (list Z) :=
  match l with
  | [] => Some []
  | s :: rest =>
      match parse_decimal s, parse_decimals rest with
      | Some n, Some ns => Some (n :: ns)
      | _, _ => None
      end
  end.

(** [s] without its last character, and that character. *)
Fixpoint unsnoc (s : string) : option (string * ascii) :=
  match s with
  | EmptyString => None
  | String c rest =>
      match unsnoc rest with
      | None => Some (EmptyString, c)
      | Some (init, last) => Some (String c init, last)
      end
  end.

Definition strip_hardened_mark (s : string) : string * bool :=
  match unsnoc s with
  | Some (init, "'"%char) => (init, true)
  | _ => (s, false)
  end.

(** The inside of a bracketed segment: a range if it has a dash, a set
    otherwise. *)
Definition parse_bracket (inner : string) : option Constraint :=
  match split_on "-" inner with
  | [a; b] =>
      match parse_decimal a, parse_decimal b with
      | Some lo, Some hi => Some (Between lo hi)
      | _, _ => None
      end
  | _ =>
      match parse_decimals (split_on "," inner) with
      | Some vs => Some (OneOf vs)
      | None => None
      end
  end.

Definition parse_constraint (s : string) : option Constraint :=
  if String.eqb s "coin_type" then Some CoinType
  else if String.eqb s "account" || String.eqb s "change"
          || String.eqb s "address_index" then Some Placeholder
  else match s with
       | String "["%char rest =>
           match unsnoc rest with
           | Some (inner, "]"%char) => parse_bracket inner
           | _ => None
           end
       | _ =>
           match parse_decimal s with
           | Some n => Some (OneOf [n])
           | None => None
           end
       end.

Definition parse_element (s : string) : option Element :=
  let '(body, hardened) := strip_hardened_mark s in
  match parse_constraint body with
  | Some c => Some (mkElement c hardened)
  | None => None
  end.

Fixpoint parse_elements (l : list string) : option (list Element) :=
  match l with
  | [] => Some []
  | s :: rest =>
      match parse_element s, parse_elements rest with
      | Some e, Some es => Some (e :: es)
      | _, _ => None
      end
  end.

Definition parse_pattern (pattern : string) : option (list Element) :=
  match split_on "/" pattern with
  | "m" :: segments => parse_elements segments
  | segments => parse_elements segments
  end.

Definition satisfies (reference_coin_type : Z) (e : Element) (segment : Z)
  : bool :=
  let hardened := Z.testbit segment 31 in
  let index := Z.land segment (HARDENED - 1) in
  Bool.eqb hardened (element_hardened e)
  && match element_constraint e with
     | OneOf values => existsb (Z.eqb index) values
     | Between lo hi => (lo <=? index) && (index <=? hi)
     | CoinType => index =? reference_coin_type
     | Placeholder => true
     end.

Fixpoint all_satisfy (reference_coin_type : Z) (es : list Element)
    (path : list Z) : bool :=
  match es, path with
  | [], [] => true
  | e :: es', segment :: path' =>
      satisfies reference_coin_type e segment
      && all_satisfy reference_coin_type es' path'
  | _, _ => false
  end.

Definition PathSchema_match (schema : PathSchema) (path : list Z) : bool :=
  match parse_pattern (schema_pattern schema) with
  | Some es => all_satisfy (schema_slip44_id schema) es path
  | None => false
  end.

(** Modelled from the spec: [PATTERN_BIP44] is declared in
    apps/common/paths.py, which is not among the sources; the spec calls it
    the canonical BIP-44 pattern, and it is written here after the BIP-49
    and BIP-84 templates of keychain.py. *)
Definition PATTERN_BIP44 : string :=
  "m/44'/coin_type'/account'/change/address_index".

(** Modelled from the spec: [BITCOIN_NAMES] is declared in
    apps/bitcoin/common.py, which is not among the sources; the spec
    describes it as the Bitcoin family of coin names. *)
Definition BITCOIN_NAMES : list string := ["Bitcoin"].

(** ** Coins and surroundings used to exercise the definitions *)

Definition Bitcoin : CoinInfo :=
  mkCoinInfo "Bitcoin" 0 "secp256k1" true None.

Definition Bcash : CoinInfo :=
  mkCoinInfo "Bcash" 145 "secp256k1" false (Some 145).

Definition Dash : CoinInfo :=
  mkCoinInfo "Dash" 5 "secp256k1" false None.

(** A three-coin registry behaving as [coininfo.by_name] does. *)
Definition by_name (name : string) : Exn + CoinInfo :=
  if String.eqb name "Bitcoin" then inr Bitcoin
  else if String.eqb name "Bcash" then inr Bcash
  else if String.eqb name "Dash" then inr Dash
  else inl ValueError.

(** [n'] in path notation. *)
Definition H (n : Z) : Z := Z.lor n HARDENED.

(** The paths 44'/0'/0'/0/0 and 49'/0'/0'/0/0. *)
Definition bip44_path : list Z := [H 44; H 0; H 0; 0; 0].
Definition bip49_path : list Z := [H 49; H 0; H 0; 0; 0].

(** The surroundings of the dispatcher used to exercise it: the context is
    trivial, a request is its [coin_name], keychains and authorizations are
    numbers (an authorization carries the keychain of the same number),
    [__enter__] returns, [__exit__] returns a false value, and the world is a
    script that says what the acquisition service and the handler do. *)
Record Script : Type := mkScript {
  acquisition : Exn + Z;
  handler : Exn + string
}.

Definition sample_respond (c : Call unit (option string) Z Z) (w : Script)
  : (Exn + Resp unit (option string) Z Z string c) * Script :=
  match c as c0
    return (Exn + Resp unit (option string) Z Z string c0) * Script
  with
  | GetKeychain _ _ _ _ => (acquisition w, w)
  | KeychainEnter _ => (inr tt, w)
  | KeychainExit _ _ => (inr false, w)
  | CallFunc _ _ _ _ _ => (handler w, w)
  end.

Definition sample_wrapper (msg : option string) (authorization : option Z)
  : Prog unit (option string) Z Z string (option string) :=
  wrapper unit (option string) Z Z string (fun m => m) (fun a => a)
    PATTERN_BIP44 BITCOIN_NAMES by_name tt msg authorization.

Definition sample_run (msg : option string) (authorization : option Z)
    (w : Script)
  : Outcome unit (option string) Z Z Script (option string) :=
  run unit (option string) Z Z string Script sample_respond
    (sample_wrapper msg authorization) w.

(** Entries of a log that are the [with] statement's calls of [__enter__]
    and [__exit__]. *)
Definition is_keychain_scope {Ctx MsgIn Keychain CoinJoinAuthorization : Type}
    (ev : Event Ctx MsgIn Keychain CoinJoinAuthorization) : bool :=
  match ev with
  | Called (KeychainEnter _) => true
  | Called (KeychainExit _ _) => true
  | _ => false
  end.

(** Surroundings in which [__enter__] and [__exit__] are scripted too. *)
Record Scenario : Type := mkScenario {
  on_acquire : Exn + Z;
  on_enter : Exn + unit;
  on_func : Exn + string;
  on_exit : Exn + bool
}.

Definition scenario_respond (c : Call unit (option string) Z Z) (w : Scenario)
  : (Exn + Resp unit (option string) Z Z string c) * Scenario :=
  match c as c0
    return (Exn + Resp unit (option string) Z Z string c0) * Scenario
  with
  | GetKeychain _ _ _ _ => (on_acquire w, w)
  | KeychainEnter _ => (on_enter w, w)
  | KeychainExit _ _ => (on_exit w, w)
  | CallFunc _ _ _ _ _ => (on_func w, w)
  end.

Definition scenario_run (msg : option string) (authorization : option Z)
    (w : Scenario)
  : Outcome unit (option string) Z Z Scenario (option string) :=
  run unit (option string) Z Z string Scenario scenario_respond
    (sample_wrapper msg authorization) w.

(** A registry that is out of order: every lookup raises an exception that
    is not a [ValueError]. *)
Definition broken_by_name (name : string) : Exn + CoinInfo :=
  inl (OtherException 2).

(** ** Properties of the validator and of the schema set builder *)

Section KeychainFacts.

Variable bip44 : string.
Variable names : list string.
Variable matcher : PathSchema -> list Z -> bool.

Local Abbreviation validate := (validate_input_script_type bip44 names matcher).
Local Abbreviation selected := (validate_patterns bip44 names).
Local Abbreviation patterns_of := (schema_patterns bip44 names).
Local Abbreviation schemas_of := (get_schemas_for_coin bip44 names).

(** C1: on a coin without segwit, a request that declares SPENDP2SHWITNESS or
    SPENDWITNESS is refused, whatever its path and multisig attribute. *)
Theorem validate_segwit_type_on_non_segwit_coin :
  forall (coin : CoinInfo) (msg : MsgWithAddressScriptType),
    segwit coin = false ->
    script_type msg = Some SPENDP2SHWITNESS
    \/ script_type msg = Some SPENDWITNESS ->
    validate coin msg = false.
Proof.
  intros coin msg Hseg Hty.
  unfold validate_input_script_type, validate_patterns, effective_script_type.
  rewrite Hseg.
  destruct Hty as [-> | ->]; destruct (multisig_truth (multisig msg));
    reflexivity.
Qed.

(** C10: SPENDMULTISIG without a multisig descriptor selects no template and
    is refused, on every coin and for every path. *)
Theorem validate_multisig_type_without_multisig :
  forall (coin : CoinInfo) (msg : MsgWithAddressScriptType),
    script_type msg = Some SPENDMULTISIG ->
    multisig_truth (multisig msg) = false ->
    selected coin msg = [] /\ validate coin msg = false.
Proof.
  intros coin msg Hty Hms.
  assert (Hsel : selected coin msg = []).
  { unfold validate_patterns, effective_script_type.
    rewrite Hty, Hms. simpl.
    destruct (segwit coin); reflexivity. }
  split; [exact Hsel |].
  unfold validate_input_script_type. rewrite Hsel. reflexivity.
Qed.

(** Every template the validator can select is one the schema set builder
    collects for the same coin. *)
Lemma selected_incl_patterns :
  forall (coin : CoinInfo) (msg : MsgWithAddressScriptType),
    incl (selected coin msg) (patterns_of coin).
Proof.
  intros coin msg p.
  unfold validate_patterns, schema_patterns, basic_patterns,
    compatibility_patterns, segwit_patterns.
  destruct (effective_script_type msg), (multisig_truth (multisig msg)),
    (segwit coin), (name_in (coin_name coin) names);
    simpl; intuition auto 20.
Qed.

Lemma slip44_bound_in_schemas :
  forall (coin : CoinInfo) (p : string),
    In p (patterns_of coin) ->
    In (mkPathSchema p (slip44 coin)) (schemas_of coin).
Proof.
  intros coin p Hp. unfold get_schemas_for_coin.
  assert (H0 : In (mkPathSchema p (slip44 coin))
                 (map (fun q => mkPathSchema q (slip44 coin))
                    (patterns_of coin))).
  { apply in_map_iff. exists p. split; [reflexivity | exact Hp]. }
  destruct (fork_id coin); [apply in_or_app; left |]; exact H0.
Qed.

(** C5: the validator accepts exactly when a selected template bound to the
    coin's own slip44 matches; a path that no slip44-bound schema of the
    coin's schema set accepts is therefore refused, also when one of the
    schemas bound to coin type 0 accepts it. *)
Theorem validate_binds_slip44_only :
  forall (coin : CoinInfo) (msg : MsgWithAddressScriptType),
    (validate coin msg = true <->
     exists p, In p (selected coin msg)
               /\ matcher (mkPathSchema p (slip44 coin)) (address_n msg) = true)
    /\ ((forall s, In s (schemas_of coin) ->
                   schema_slip44_id s = slip44 coin ->
                   matcher s (address_n msg) = false) ->
        validate coin msg = false).
Proof.
  intros coin msg.
  assert (Hiff : validate coin msg = true <->
     exists p, In p (selected coin msg)
               /\ matcher (mkPathSchema p (slip44 coin)) (address_n msg)
                  = true).
  { unfold validate_input_script_type. apply existsb_exists. }
  split; [exact Hiff |].
  intros Hnone.
  destruct (validate coin msg) eqn:Hv; [| reflexivity].
  destruct (proj1 Hiff eq_refl) as [p [Hp Hm]].
  rewrite (Hnone (mkPathSchema p (slip44 coin))) in Hm.
  - discriminate Hm.
  - apply slip44_bound_in_schemas, (selected_incl_patterns coin msg), Hp.
  - reflexivity.
Qed.

(** C3, as the code has it: a coin of the Bitcoin family gets five
    compatibility templates after the three basic ones (the two generic
    GreenAddress patterns, the two GreenAddress signing patterns and the Casa
    pattern); any other coin gets none. *)
Theorem schema_patterns_compatibility :
  forall coin : CoinInfo,
    (name_in (coin_name coin) names = true ->
     patterns_of coin =
       ([bip44; PATTERN_BIP45; PATTERN_PURPOSE48]
        ++ [PATTERN_GREENADDRESS_A; PATTERN_GREENADDRESS_B;
            PATTERN_GREENADDRESS_SIGN_A; PATTERN_GREENADDRESS_SIGN_B;
            PATTERN_CASA]
        ++ segwit_patterns coin)%list)
    /\ (name_in (coin_name coin) names = false ->
        patterns_of coin =
          ([bip44; PATTERN_BIP45; PATTERN_PURPOSE48]
           ++ segwit_patterns coin)%list).
Proof.
  intros coin. unfold schema_patterns, compatibility_patterns, basic_patterns.
  split; intros ->; reflexivity.
Qed.

(** C4: with a fork id, the schema set holds every collected template twice,
    bound to the coin's slip44 and bound to coin type 0, and nothing else;
    without a fork id it holds the slip44-bound schemas only. *)
Theorem schemas_fork_id_duplicates :
  forall coin : CoinInfo,
    (fork_id coin <> None ->
     forall s, In s (schemas_of coin) <->
       exists p, In p (patterns_of coin)
                 /\ (s = mkPathSchema p (slip44 coin) \/ s = mkPathSchema p 0))
    /\ (fork_id coin = None ->
        forall s, In s (schemas_of coin) <->
          exists p, In p (patterns_of coin)
                    /\ s = mkPathSchema p (slip44 coin)).
Proof.
  intros coin. unfold get_schemas_for_coin.
  split; intros Hfork s.
  - destruct (fork_id coin) as [f |]; [| contradiction].
    rewrite in_app_iff, !in_map_iff. split.
    + intros [[p [<- Hp]] | [p [<- Hp]]]; exists p; auto.
    + intros [p [Hp [-> | ->]]]; [left | right]; exists p; auto.
  - rewrite Hfork, in_map_iff. split.
    + intros [p [<- Hp]]. exists p; auto.
    + intros [p [Hp ->]]. exists p; auto.
Qed.

(** C9: the schema set of a coin, hence of every coin the registry knows, is
    never empty and holds the BIP-44 template bound to the coin's slip44. *)
Theorem schemas_contain_bip44 :
  forall coin : CoinInfo,
    schemas_of coin <> []
    /\ In (mkPathSchema bip44 (slip44 coin)) (schemas_of coin).
Proof.
  intros coin.
  assert (Hin : In (mkPathSchema bip44 (slip44 coin)) (schemas_of coin)).
  { apply slip44_bound_in_schemas. unfold schema_patterns, basic_patterns.
    simpl. left. reflexivity. }
  split; [| exact Hin].
  intros Hnil. rewrite Hnil in Hin. exact Hin.
Qed.

End KeychainFacts.

(** *** On the sample coins *)

Lemma validate_segwit_type_on_non_segwit_coin_witness :
  segwit Dash = false
  /\ validate_input_script_type PATTERN_BIP44 BITCOIN_NAMES PathSchema_match
       Dash (mkMsg bip49_path (Some SPENDP2SHWITNESS) AttrObject) = false.
Proof.
  split; [reflexivity |].
  apply validate_segwit_type_on_non_segwit_coin;
    [reflexivity | left; reflexivity].
Defined.

Lemma validate_multisig_type_without_multisig_witness :
  validate_patterns PATTERN_BIP44 BITCOIN_NAMES
    Bitcoin (mkMsg bip44_path (Some SPENDMULTISIG) AttrNone) = []
  /\ validate_input_script_type PATTERN_BIP44 BITCOIN_NAMES PathSchema_match
       Bitcoin (mkMsg bip44_path (Some SPENDMULTISIG) AttrNone) = false.
Proof.
  apply validate_multisig_type_without_multisig; reflexivity.
Defined.

(** Bcash has a fork id: its schema set accepts the Bitcoin path
    44'/0'/0'/0/0 through a schema bound to coin type 0, and the validator
    refuses the same path. *)
Lemma validate_binds_slip44_only_witness :
  existsb (fun s => PathSchema_match s bip44_path)
    (get_schemas_for_coin PATTERN_BIP44 BITCOIN_NAMES Bcash) = true
  /\ validate_input_script_type PATTERN_BIP44 BITCOIN_NAMES PathSchema_match
       Bcash (mkMsg bip44_path (Some SPENDADDRESS) AttrMissing) = false.
Proof.
  split; [reflexivity |].
  apply validate_binds_slip44_only.
  intros s Hin Hs. vm_compute in Hin.
  repeat (destruct Hin as [<- | Hin];
          [first [reflexivity | discriminate Hs] |]).
  contradiction.
Defined.

(** C3, as stated, fails on Bitcoin: what the builder puts between the basic
    and the segwit templates is not a list of four, and the schema set has
    3 + 5 + 2 members. *)
Lemma compatibility_templates_not_four :
  name_in (coin_name Bitcoin) BITCOIN_NAMES = true
  /\ List.length (get_schemas_for_coin PATTERN_BIP44 BITCOIN_NAMES Bitcoin)
     = 10%nat
  /\ ~ (exists compat : list string,
          List.length compat = 4%nat
          /\ schema_patterns PATTERN_BIP44 BITCOIN_NAMES Bitcoin
             = (basic_patterns PATTERN_BIP44 ++ compat
                ++ segwit_patterns Bitcoin)%list).
Proof.
  split; [reflexivity |]. split; [reflexivity |].
  intros [compat [Hlen Heq]].
  apply (f_equal (@List.length string)) in Heq.
  rewrite !length_app, Hlen in Heq.
  vm_compute in Heq. discriminate Heq.
Qed.

Lemma schema_patterns_compatibility_witness :
  schema_patterns PATTERN_BIP44 BITCOIN_NAMES Bitcoin
  = [PATTERN_BIP44; PATTERN_BIP45; PATTERN_PURPOSE48;
     PATTERN_GREENADDRESS_A; PATTERN_GREENADDRESS_B;
     PATTERN_GREENADDRESS_SIGN_A; PATTERN_GREENADDRESS_SIGN_B; PATTERN_CASA;
     PATTERN_BIP49; PATTERN_BIP84]
  /\ schema_patterns PATTERN_BIP44 BITCOIN_NAMES Dash
     = [PATTERN_BIP44; PATTERN_BIP45; PATTERN_PURPOSE48].
Proof.
  split.
  - apply (proj1 (schema_patterns_compatibility PATTERN_BIP44 BITCOIN_NAMES
                    Bitcoin)).
    reflexivity.
  - apply (proj2 (schema_patterns_compatibility PATTERN_BIP44 BITCOIN_NAMES
                    Dash)).
    reflexivity.
Defined.

Lemma schemas_fork_id_duplicates_witness :
  (In (mkPathSchema PATTERN_BIP44 145)
      (get_schemas_for_coin PATTERN_BIP44 BITCOIN_NAMES Bcash)
   /\ In (mkPathSchema PATTERN_BIP44 0)
        (get_schemas_for_coin PATTERN_BIP44 BITCOIN_NAMES Bcash))
  /\ ~ In (mkPathSchema PATTERN_BIP45 7)
         (get_schemas_for_coin PATTERN_BIP44 BITCOIN_NAMES Bitcoin).
Proof.
  assert (Hfork : fork_id Bcash <> None) by discriminate.
  pose proof (proj1 (schemas_fork_id_duplicates PATTERN_BIP44 BITCOIN_NAMES
                       Bcash) Hfork) as Hb.
  pose proof (proj2 (schemas_fork_id_duplicates PATTERN_BIP44 BITCOIN_NAMES
                       Bitcoin) eq_refl) as Hc.
  repeat split.
  - apply Hb. exists PATTERN_BIP44. split; [left; reflexivity |].
    left; reflexivity.
  - apply Hb. exists PATTERN_BIP44. split; [left; reflexivity |].
    right; reflexivity.
  - intros Hin. apply Hc in Hin. destruct Hin as [p [_ Heq]].
    discriminate Heq.
Defined.

(** C6: with the matcher and the BIP-44 template as the spec describes them,
    Bitcoin (slip44 0, segwit, no fork id) may spend from 44'/0'/0'/0/0 as
    SPENDADDRESS without multisig, and may not spend from 49'/0'/0'/0/0 as
    SPENDWITNESS, whatever the Bitcoin family and the multisig attribute. *)
Theorem validate_bitcoin_scenarios :
  forall names : list string,
    validate_input_script_type PATTERN_BIP44 names PathSchema_match
      Bitcoin (mkMsg bip44_path (Some SPENDADDRESS) AttrMissing) = true
    /\ validate_input_script_type PATTERN_BIP44 names PathSchema_match
         Bitcoin (mkMsg bip44_path (Some SPENDADDRESS) AttrNone) = true
    /\ forall m : MultisigAttr,
         validate_input_script_type PATTERN_BIP44 names PathSchema_match
           Bitcoin (mkMsg bip49_path (Some SPENDWITNESS) m) = false.
Proof.
  intros names.
  unfold validate_input_script_type, validate_patterns.
  split; [| split; [| intros m; destruct m]];
    destruct (name_in (coin_name Bitcoin) names); reflexivity.
Qed.

(** ** Properties of coin resolution and of the dispatcher *)

Section DispatcherFacts.

Variables Ctx MsgIn Keychain CoinJoinAuthorization MsgOut : Type.
Variable msg_coin_name : MsgIn -> option string.
Variable authorization_keychain : CoinJoinAuthorization -> Keychain.
Variable bip44 : string.
Variable names : list string.
Variable registry : string -> Exn + CoinInfo.
Variable World : Type.
Variable respond :
  forall c : Call Ctx MsgIn Keychain CoinJoinAuthorization,
    World -> (Exn + Resp Ctx MsgIn Keychain CoinJoinAuthorization MsgOut c)
             * World.

Local Abbreviation wrap :=
  (wrapper Ctx MsgIn Keychain CoinJoinAuthorization MsgOut msg_coin_name
     authorization_keychain bip44 names registry).
Local Abbreviation exec :=
  (run Ctx MsgIn Keychain CoinJoinAuthorization MsgOut World respond).
Local Abbreviation lifted :=
  (lift Ctx MsgIn Keychain CoinJoinAuthorization MsgOut).

(** C7: no name means Bitcoin; a name the registry knows yields the
    registry's metadata; a name for which the registry raises [ValueError]
    yields the "Unsupported coin type" data error; and resolving a coin makes
    no call and leaves the world as it was. *)
Theorem get_coin_by_name_contract :
  (forall coin,
      registry "Bitcoin" = inr coin ->
      get_coin_by_name registry None = inr coin)
  /\ (forall name coin,
        registry name = inr coin ->
        get_coin_by_name registry (Some name) = inr coin)
  /\ (forall name,
        registry name = inl ValueError ->
        get_coin_by_name registry (Some name)
        = inl (DataError "Unsupported coin type"))
  /\ (forall coin_name w,
        log (exec (lifted (get_coin_by_name registry coin_name)) w) = []
        /\ final (exec (lifted (get_coin_by_name registry coin_name)) w) = w
        /\ result (exec (lifted (get_coin_by_name registry coin_name)) w)
           = get_coin_by_name registry coin_name).
Proof.
  unfold get_coin_by_name.
  repeat apply conj.
  - intros coin ->. reflexivity.
  - intros name coin ->. reflexivity.
  - intros name ->. reflexivity.
  - intros coin_name w.
    destruct (match registry _ with inr c => _ | inl _ => _ end);
      repeat apply conj; reflexivity.
Qed.

(** C2: with an authorization, the wrapper builds no schema set and acquires
    no keychain; it resolves the coin of the request and, if that succeeds,
    makes exactly one call: the handler, with the authorization's keychain,
    the resolved coin and the authorization, whose outcome it hands on. *)
Theorem wrapper_with_authorization :
  forall (ctx : Ctx) (msg : MsgIn) (a : CoinJoinAuthorization) (w : World),
    filter is_acquisition (log (exec (wrap ctx msg (Some a)) w)) = []
    /\ filter is_schema_build (log (exec (wrap ctx msg (Some a)) w)) = []
    /\ match get_coin_by_name registry (msg_coin_name msg) with
       | inl e =>
           log (exec (wrap ctx msg (Some a)) w) = []
           /\ result (exec (wrap ctx msg (Some a)) w) = inl e
       | inr coin =>
           log (exec (wrap ctx msg (Some a)) w)
           = [Called (CallFunc ctx msg (authorization_keychain a) coin
                        (Some a))]
           /\ result (exec (wrap ctx msg (Some a)) w)
              = match fst (respond
                             (CallFunc ctx msg (authorization_keychain a) coin
                                (Some a)) w) with
                | inl e => inl e
                | inr r => inr (Some r)
                end
       end.
Proof.
  intros ctx msg a w. unfold wrapper.
  destruct (get_coin_by_name registry (msg_coin_name msg)) as [e | coin]; simpl.
  - repeat apply conj; reflexivity.
  - destruct (respond _ w) as [[e | r] w']; simpl;
      repeat apply conj; reflexivity.
Qed.

(** C8: without an authorization, the keychain that was acquired and
    entered is exited after the handler, whatever the handler's outcome [h]
    (a response, an error, or the [GeneratorExit] of a cancelled task), and
    [__exit__] is told about the exception; an error of coin resolution or
    of keychain acquisition comes out of the wrapper as it is, and the
    handler is not called. *)
Theorem wrapper_without_authorization :
  forall (ctx : Ctx) (msg : MsgIn) (w : World),
    (forall e,
        get_coin_by_name registry (msg_coin_name msg) = inl e ->
        result (exec (wrap ctx msg None) w) = inl e
        /\ log (exec (wrap ctx msg None) w) = [])
    /\ (forall (coin : CoinInfo) (e : Exn) (w1 : World),
          get_coin_by_name registry (msg_coin_name msg) = inr coin ->
          respond (GetKeychain ctx (curve_name coin)
                     (get_schemas_for_coin bip44 names coin) [["SLIP-0019"]]) w
          = (inl e, w1) ->
          result (exec (wrap ctx msg None) w) = inl e
          /\ filter is_func_call (log (exec (wrap ctx msg None) w)) = [])
    /\ (forall (coin : CoinInfo) (keychain : Keychain) (w1 w2 : World)
               (h : Exn + MsgOut) (w3 : World),
          get_coin_by_name registry (msg_coin_name msg) = inr coin ->
          respond (GetKeychain ctx (curve_name coin)
                     (get_schemas_for_coin bip44 names coin) [["SLIP-0019"]]) w
          = (inr keychain, w1) ->
          respond (KeychainEnter keychain) w1 = (inr tt, w2) ->
          respond (CallFunc ctx msg keychain coin None) w2 = (h, w3) ->
          log (exec (wrap ctx msg None) w)
          = [BuiltSchemas coin;
             Called (GetKeychain ctx (curve_name coin)
                       (get_schemas_for_coin bip44 names coin)
                       [["SLIP-0019"]]);
             Called (KeychainEnter keychain);
             Called (CallFunc ctx msg keychain coin None);
             Called (KeychainExit keychain (raised h))]).
Proof.
  intros ctx msg w. unfold wrapper, get_keychain_for_coin.
  repeat apply conj.
  - intros e ->. split; reflexivity.
  - intros coin e w1 -> Hacq. simpl. rewrite Hacq. split; reflexivity.
  - intros coin keychain w1 w2 h w3 -> Hacq Henter Hfunc.
    simpl. rewrite Hacq. simpl. rewrite Henter. simpl. rewrite Hfunc.
    destruct h as [e | r]; simpl;
      destruct (respond (KeychainExit keychain _) w3) as [[e' | []] w4];
      reflexivity.
Qed.

End DispatcherFacts.

(** *** On the sample registry and surroundings *)

Lemma get_coin_by_name_contract_witness :
  get_coin_by_name by_name None = inr Bitcoin
  /\ get_coin_by_name by_name (Some "Bcash") = inr Bcash
  /\ get_coin_by_name by_name (Some "Dogecoin2")
     = inl (DataError "Unsupported coin type").
Proof.
  pose proof (get_coin_by_name_contract unit (option string) Z Z string
                by_name Script sample_respond) as [Hnone [Hknown [Hunknown _]]].
  split; [| split].
  - apply Hnone. reflexivity.
  - apply Hknown. reflexivity.
  - apply Hunknown. reflexivity.
Defined.

(** A cancelled handler, a failed acquisition and an unknown coin. *)
Lemma wrapper_without_authorization_witness :
  log (sample_run (Some "Bcash") None (mkScript (inr 7) (inl GeneratorExit)))
  = [BuiltSchemas Bcash;
     Called (GetKeychain tt "secp256k1"
               (get_schemas_for_coin PATTERN_BIP44 BITCOIN_NAMES Bcash)
               [["SLIP-0019"]]);
     Called (KeychainEnter 7);
     Called (CallFunc tt (Some "Bcash") 7 Bcash None);
     Called (KeychainExit 7 (Some GeneratorExit))]
  /\ (result (sample_run (Some "Bcash") None
                (mkScript (inl (OtherException 1)) (inr "done")))
      = inl (OtherException 1)
      /\ filter is_func_call
           (log (sample_run (Some "Bcash") None
                   (mkScript (inl (OtherException 1)) (inr "done")))) = [])
  /\ (result (sample_run (Some "Dogecoin2") None
                (mkScript (inr 7) (inr "done")))
      = inl (DataError "Unsupported coin type")
      /\ log (sample_run (Some "Dogecoin2") None
                (mkScript (inr 7) (inr "done"))) = []).
Proof.
  split; [| split].
  - apply (proj2 (proj2 (wrapper_without_authorization
             unit (option string) Z Z string (fun m => m) (fun a => a)
             PATTERN_BIP44 BITCOIN_NAMES by_name Script sample_respond
             tt (Some "Bcash") (mkScript (inr 7) (inl GeneratorExit))))
           Bcash 7 (mkScript (inr 7) (inl GeneratorExit))
           (mkScript (inr 7) (inl GeneratorExit)) (inl GeneratorExit)
           (mkScript (inr 7) (inl GeneratorExit)));
      reflexivity.
  - apply (proj1 (proj2 (wrapper_without_authorization
             unit (option string) Z Z string (fun m => m) (fun a => a)
             PATTERN_BIP44 BITCOIN_NAMES by_name Script sample_respond
             tt (Some "Bcash")
             (mkScript (inl (OtherException 1)) (inr "done"))))
           Bcash (OtherException 1)
           (mkScript (inl (OtherException 1)) (inr "done")));
      reflexivity.
  - apply (proj1 (wrapper_without_authorization
             unit (option string) Z Z string (fun m => m) (fun a => a)
             PATTERN_BIP44 BITCOIN_NAMES by_name Script sample_respond
             tt (Some "Dogecoin2") (mkScript (inr 7) (inr "done")))).
    reflexivity.
Defined.

(** With authorization 3 the handler is the only call, also for Bcash. *)
Example authorized_sample_run :
  log (sample_run (Some "Bcash") (Some 3) (mkScript (inr 7) (inr "done")))
  = [Called (CallFunc tt (Some "Bcash") 3 Bcash (Some 3))]
  /\ result (sample_run (Some "Bcash") (Some 3)
               (mkScript (inr 7) (inr "done")))
     = inr (Some "done").
Proof.
  split; reflexivity.
Qed.

(** ** Which template goes with which request *)

(** Two of the templates of keychain.py are different strings. *)
Ltac distinct_patterns H :=
  apply String.eqb_eq in H; vm_compute in H; discriminate H.

(** Closes a goal whose context holds a membership of a template in a list
    of other templates. *)
Ltac refute_membership :=
  repeat match goal with
         | H : In _ _ |- _ => simpl in H
         | H : _ \/ _ |- _ => destruct H
         | H : False |- _ => contradiction
         | H : ?a = ?a -> False |- _ => exfalso; apply H; reflexivity
         | H : ?a <> ?b, H' : ?a = ?b |- _ => contradiction
         | H : ?a <> ?b, H' : ?b = ?a |- _ => symmetry in H'; contradiction
         | H : _ = _ |- _ => distinct_patterns H
         end.

Section ValidatorFacts.

Variable bip44 : string.
Variable names : list string.
Variable matcher : PathSchema -> list Z -> bool.

Local Abbreviation validate := (validate_input_script_type bip44 names matcher).
Local Abbreviation selected := (validate_patterns bip44 names).
Local Abbreviation patterns_of := (schema_patterns bip44 names).
Local Abbreviation schemas_of := (get_schemas_for_coin bip44 names).

(** The validator selects a sublist of what the builder collects. *)
Lemma selected_in_patterns :
  forall (coin : CoinInfo) (msg : MsgWithAddressScriptType) (p : string),
    In p (selected coin msg) -> In p (patterns_of coin).
Proof.
  intros coin msg p.
  unfold validate_patterns, schema_patterns, basic_patterns,
    compatibility_patterns, segwit_patterns.
  destruct (effective_script_type msg), (multisig_truth (multisig msg)),
    (segwit coin), (name_in (coin_name coin) names);
    simpl; intuition auto 20.
Qed.

(** X1: a path the validator accepts is a path that some schema of the
    coin's schema set accepts: the per-request check never lets through what
    the keychain built from [get_schemas_for_coin] would refuse. *)
Theorem validate_within_schema_set :
  forall (coin : CoinInfo) (msg : MsgWithAddressScriptType),
    validate_input_script_type bip44 names matcher coin msg = true ->
    existsb (fun s => matcher s (address_n msg))
      (get_schemas_for_coin bip44 names coin) = true.
Proof.
  intros coin msg Hv.
  unfold validate_input_script_type in Hv.
  apply existsb_exists in Hv. destruct Hv as [p [Hp Hm]].
  apply existsb_exists. exists (mkPathSchema p (slip44 coin)).
  split; [| exact Hm].
  apply selected_in_patterns in Hp.
  unfold get_schemas_for_coin.
  assert (H0 : In (mkPathSchema p (slip44 coin))
                 (map (fun q => mkPathSchema q (slip44 coin))
                    (patterns_of coin))).
  { apply in_map_iff. exists p. split; [reflexivity | exact Hp]. }
  destruct (fork_id coin); [apply in_or_app; left |]; exact H0.
Qed.


(** X3: the BIP-49 template is selected exactly for SPENDP2SHWITNESS on a
    segwit coin, and the BIP-84 template exactly for SPENDWITNESS on a segwit
    coin. *)
Theorem segwit_templates_selected_iff :
  forall (coin : CoinInfo) (msg : MsgWithAddressScriptType),
    bip44 <> PATTERN_BIP49 ->
    bip44 <> PATTERN_BIP84 ->
    (In PATTERN_BIP49 (validate_patterns bip44 names coin msg) <->
     segwit coin = true /\ effective_script_type msg = SPENDP2SHWITNESS)
    /\ (In PATTERN_BIP84 (validate_patterns bip44 names coin msg) <->
        segwit coin = true /\ effective_script_type msg = SPENDWITNESS).
Proof.
  intros coin msg H49 H84. unfold validate_patterns.
  destruct (effective_script_type msg), (multisig_truth (multisig msg)),
    (segwit coin), (name_in (coin_name coin) names); simpl;
    (split;
     (split;
      [ intros Hin; first [split; reflexivity | exfalso; refute_membership]
      | intros [Ha Hb];
        first [discriminate Ha | discriminate Hb | auto 10] ])).
Qed.

(** X4: the Casa template is selected exactly for SPENDP2SHWITNESS on a
    segwit coin of the Bitcoin family. *)
Theorem casa_template_selected_iff :
  forall (coin : CoinInfo) (msg : MsgWithAddressScriptType),
    bip44 <> PATTERN_CASA ->
    (In PATTERN_CASA (validate_patterns bip44 names coin msg) <->
     name_in (coin_name coin) names = true
     /\ segwit coin = true
     /\ effective_script_type msg = SPENDP2SHWITNESS).
Proof.
  intros coin msg Hcasa. unfold validate_patterns.
  destruct (effective_script_type msg), (multisig_truth (multisig msg)),
    (segwit coin), (name_in (coin_name coin) names); simpl;
    (split;
     [ intros Hin;
       first [repeat split; reflexivity | exfalso; refute_membership]
     | intros [Ha [Hb Hc]];
       first [discriminate Ha | discriminate Hb | discriminate Hc
             | auto 10] ]).
Qed.

(** X5: the two GreenAddress signing templates are never selected by the
    validator, although the schema set of a Bitcoin-family coin holds
    them. *)
Theorem signing_templates_never_selected :
  forall (coin : CoinInfo) (msg : MsgWithAddressScriptType),
    bip44 <> PATTERN_GREENADDRESS_SIGN_A ->
    bip44 <> PATTERN_GREENADDRESS_SIGN_B ->
    ~ In PATTERN_GREENADDRESS_SIGN_A (validate_patterns bip44 names coin msg)
    /\ ~ In PATTERN_GREENADDRESS_SIGN_B
           (validate_patterns bip44 names coin msg)
    /\ (name_in (coin_name coin) names = true ->
        In PATTERN_GREENADDRESS_SIGN_A (schema_patterns bip44 names coin)
        /\ In PATTERN_GREENADDRESS_SIGN_B (schema_patterns bip44 names coin)).
Proof.
  intros coin msg HA HB.
  split; [| split].
  - unfold validate_patterns.
    destruct (effective_script_type msg), (multisig_truth (multisig msg)),
      (segwit coin), (name_in (coin_name coin) names); simpl;
      intros Hin; refute_membership.
  - unfold validate_patterns.
    destruct (effective_script_type msg), (multisig_truth (multisig msg)),
      (segwit coin), (name_in (coin_name coin) names); simpl;
      intros Hin; refute_membership.
  - intros Hname.
    unfold schema_patterns, basic_patterns, compatibility_patterns.
    rewrite Hname. simpl. auto 10.
Qed.


(** X7: the BIP-44 template is selected exactly for SPENDADDRESS, declared
    or by default, without a multisig descriptor. *)
Theorem bip44_template_selected_iff :
  forall (coin : CoinInfo) (msg : MsgWithAddressScriptType),
    ~ In bip44
        [PATTERN_BIP45; PATTERN_PURPOSE48; PATTERN_BIP49; PATTERN_BIP84;
         PATTERN_GREENADDRESS_A; PATTERN_GREENADDRESS_B; PATTERN_CASA] ->
    (In bip44 (validate_patterns bip44 names coin msg) <->
     effective_script_type msg = SPENDADDRESS
     /\ multisig_truth (multisig msg) = false).
Proof.
  intros coin msg Hother. unfold validate_patterns.
  destruct (effective_script_type msg), (multisig_truth (multisig msg)),
    (segwit coin), (name_in (coin_name coin) names); simpl;
    (split;
     [ intros Hin;
       first [ split; reflexivity
             | exfalso; apply Hother; simpl;
               simpl in Hin; intuition auto 20 ]
     | intros [Ha Hb];
       first [discriminate Ha | discriminate Hb | auto 10] ]).
Qed.

(** X8: the schema set has three members, five more for a coin of the
    Bitcoin family and two more for a segwit coin, and twice that number when
    the coin has a fork id. *)
Theorem schemas_count :
  forall coin : CoinInfo,
    List.length (get_schemas_for_coin bip44 names coin)
    = ((3 + (if name_in (coin_name coin) names then 5 else 0)
          + (if segwit coin then 2 else 0))
       * match fork_id coin with
         | Some _ => 2
         | None => 1
         end)%nat.
Proof.
  intros coin.
  unfold get_schemas_for_coin, schema_patterns, basic_patterns,
    compatibility_patterns, segwit_patterns.
  destruct (fork_id coin), (name_in (coin_name coin) names), (segwit coin);
    reflexivity.
Qed.

End ValidatorFacts.

(** ** More on coin resolution and on the dispatcher *)

Section DispatcherScope.

Variables Ctx MsgIn Keychain CoinJoinAuthorization MsgOut : Type.
Variable msg_coin_name : MsgIn -> option string.
Variable authorization_keychain : CoinJoinAuthorization -> Keychain.
Variable bip44 : string.
Variable names : list string.
Variable registry : string -> Exn + CoinInfo.
Variable World : Type.
Variable respond :
  forall c : Call Ctx MsgIn Keychain CoinJoinAuthorization,
    World -> (Exn + Resp Ctx MsgIn Keychain CoinJoinAuthorization MsgOut c)
             * World.

Local Abbreviation wrap :=
  (wrapper Ctx MsgIn Keychain CoinJoinAuthorization MsgOut msg_coin_name
     authorization_keychain bip44 names registry).
Local Abbreviation exec :=
  (run Ctx MsgIn Keychain CoinJoinAuthorization MsgOut World respond).
Local Abbreviation scoped :=
  (with_body Ctx MsgIn Keychain CoinJoinAuthorization MsgOut).

(** X9: a [ValueError] never comes out of [get_coin_by_name], and any other
    exception of the registry comes out as it is. *)
Theorem get_coin_by_name_exceptions :
  (forall coin_name : option string,
      get_coin_by_name registry coin_name <> inl ValueError)
  /\ (forall (name : string) (e : Exn),
        registry name = inl e ->
        e <> ValueError ->
        get_coin_by_name registry (Some name) = inl e).
Proof.
  unfold get_coin_by_name. split.
  - intros coin_name.
    destruct (registry _) as [[] |]; discriminate.
  - intros name e -> Hne.
    destruct e; try reflexivity. contradiction Hne. reflexivity.
Qed.

(** X10: with an authorization, the wrapper neither enters nor exits any
    keychain: the keychain of the authorization stays as its issuer left
    it. *)
Theorem wrapper_with_authorization_no_scope :
  forall (ctx : Ctx) (msg : MsgIn) (a : CoinJoinAuthorization) (w : World),
    filter is_keychain_scope (log (exec (wrap ctx msg (Some a)) w)) = [].
Proof.
  intros ctx msg a w. unfold wrapper.
  destruct (get_coin_by_name registry (msg_coin_name msg)) as [e | coin];
    simpl; [reflexivity |].
  destruct (respond _ w) as [[e | r] w']; reflexivity.
Qed.

(** X11: whatever the body of a [with keychain:] block does, [__exit__] is
    called once, after everything the body did, and is told the exception
    the body ended with, if any. *)
Theorem with_body_exits_last :
  forall (R : Type) (keychain : Keychain)
         (body : Prog Ctx MsgIn Keychain CoinJoinAuthorization MsgOut R)
         (w : World),
    log (exec (scoped keychain body) w)
    = (log (exec body w)
       ++ [Called (KeychainExit keychain (raised (result (exec body w))))])%list.
Proof.
  intros R keychain body.
  induction body as [r | e | coin k IH | c k IH]; intros w; simpl.
  - destruct (respond _ w) as [[e' | b] w']; reflexivity.
  - destruct (respond _ w) as [[e' | []] w']; reflexivity.
  - rewrite IH. reflexivity.
  - destruct (respond c w) as [o w']. simpl. rewrite IH. reflexivity.
Qed.

(** X12: without an authorization, once the keychain is acquired and
    entered, what comes out of the wrapper is decided by the handler and by
    [__exit__]: an exception of [__exit__] wins; otherwise the handler's
    response is returned, and the handler's exception is raised again unless
    [__exit__] returned a true value, in which case the wrapper returns
    [None]. *)
Theorem wrapper_without_authorization_result :
  forall (ctx : Ctx) (msg : MsgIn) (w : World)
         (coin : CoinInfo) (keychain : Keychain) (w1 w2 w3 w4 : World)
         (h : Exn + MsgOut) (x : Exn + bool),
    get_coin_by_name registry (msg_coin_name msg) = inr coin ->
    respond (GetKeychain ctx (curve_name coin)
               (get_schemas_for_coin bip44 names coin) [["SLIP-0019"]]) w
    = (inr keychain, w1) ->
    respond (KeychainEnter keychain) w1 = (inr tt, w2) ->
    respond (CallFunc ctx msg keychain coin None) w2 = (h, w3) ->
    respond (KeychainExit keychain (raised h)) w3 = (x, w4) ->
    result (exec (wrap ctx msg None) w)
    = match x, h with
      | inl e', _ => inl e'
      | inr _, inr r => inr (Some r)
      | inr true, inl _ => inr None
      | inr false, inl e => inl e
      end
    /\ final (exec (wrap ctx msg None) w) = w4.
Proof.
  intros ctx msg w coin keychain w1 w2 w3 w4 h x Hcoin Hacq Henter Hfunc Hexit.
  unfold wrapper, get_keychain_for_coin. rewrite Hcoin. simpl.
  rewrite Hacq. simpl. rewrite Henter. simpl. rewrite Hfunc.
  destruct h as [e | r]; simpl in Hexit |- *; rewrite Hexit;
    destruct x as [e' | []]; split; reflexivity.
Qed.

(** X13: when [__enter__] of the acquired keychain raises, the exception
    comes out of the wrapper, and neither the handler nor [__exit__] is
    called. *)
Theorem wrapper_enter_failure :
  forall (ctx : Ctx) (msg : MsgIn) (w : World)
         (coin : CoinInfo) (keychain : Keychain) (w1 w2 : World) (e : Exn),
    get_coin_by_name registry (msg_coin_name msg) = inr coin ->
    respond (GetKeychain ctx (curve_name coin)
               (get_schemas_for_coin bip44 names coin) [["SLIP-0019"]]) w
    = (inr keychain, w1) ->
    respond (KeychainEnter keychain) w1 = (inl e, w2) ->
    result (exec (wrap ctx msg None) w) = inl e
    /\ log (exec (wrap ctx msg None) w)
       = [BuiltSchemas coin;
          Called (GetKeychain ctx (curve_name coin)
                    (get_schemas_for_coin bip44 names coin)
                    [["SLIP-0019"]]);
          Called (KeychainEnter keychain)]
    /\ final (exec (wrap ctx msg None) w) = w2.
Proof.
  intros ctx msg w coin keychain w1 w2 e Hcoin Hacq Henter.
  unfold wrapper, get_keychain_for_coin. rewrite Hcoin. simpl.
  rewrite Hacq. simpl. rewrite Henter. simpl.
  repeat apply conj; reflexivity.
Qed.

End DispatcherScope.

(** *** The added properties on the sample coins and surroundings *)

(** Two templates differ. *)
Ltac differ := let H := fresh "H" in intros H; distinct_patterns H.

Lemma validate_within_schema_set_witness :
  validate_input_script_type PATTERN_BIP44 BITCOIN_NAMES PathSchema_match
    Bitcoin (mkMsg bip44_path None AttrMissing) = true
  /\ existsb (fun s => PathSchema_match s bip44_path)
       (get_schemas_for_coin PATTERN_BIP44 BITCOIN_NAMES Bitcoin) = true.
Proof.
  split; [reflexivity |].
  apply (validate_within_schema_set PATTERN_BIP44 BITCOIN_NAMES
           PathSchema_match Bitcoin (mkMsg bip44_path None AttrMissing)).
  reflexivity.
Defined.

Lemma segwit_templates_selected_iff_witness :
  In PATTERN_BIP84
    (validate_patterns PATTERN_BIP44 BITCOIN_NAMES Bitcoin
       (mkMsg bip49_path (Some SPENDWITNESS) AttrNone))
  /\ ~ In PATTERN_BIP49
         (validate_patterns PATTERN_BIP44 BITCOIN_NAMES Bitcoin
            (mkMsg bip49_path (Some SPENDWITNESS) AttrNone)).
Proof.
  assert (H49 : PATTERN_BIP44 <> PATTERN_BIP49) by differ.
  assert (H84 : PATTERN_BIP44 <> PATTERN_BIP84) by differ.
  destruct (segwit_templates_selected_iff PATTERN_BIP44 BITCOIN_NAMES Bitcoin
              (mkMsg bip49_path (Some SPENDWITNESS) AttrNone) H49 H84)
    as [Hp2sh Hnative].
  split.
  - apply Hnative. split; reflexivity.
  - intros Hin. apply Hp2sh in Hin. destruct Hin as [_ Hty].
    discriminate Hty.
Defined.

Lemma casa_template_selected_iff_witness :
  In PATTERN_CASA
    (validate_patterns PATTERN_BIP44 BITCOIN_NAMES Bitcoin
       (mkMsg bip49_path (Some SPENDP2SHWITNESS) AttrNone))
  /\ ~ In PATTERN_CASA
         (validate_patterns PATTERN_BIP44 BITCOIN_NAMES Dash
            (mkMsg bip49_path (Some SPENDP2SHWITNESS) AttrNone)).
Proof.
  assert (Hcasa : PATTERN_BIP44 <> PATTERN_CASA) by differ.
  split.
  - apply (casa_template_selected_iff PATTERN_BIP44 BITCOIN_NAMES Bitcoin
             (mkMsg bip49_path (Some SPENDP2SHWITNESS) AttrNone) Hcasa).
    repeat apply conj; reflexivity.
  - intros Hin.
    apply (casa_template_selected_iff PATTERN_BIP44 BITCOIN_NAMES Dash
             (mkMsg bip49_path (Some SPENDP2SHWITNESS) AttrNone) Hcasa)
      in Hin.
    destruct Hin as [Hname _]. discriminate Hname.
Defined.

Lemma signing_templates_never_selected_witness :
  ~ In PATTERN_GREENADDRESS_SIGN_A
      (validate_patterns PATTERN_BIP44 BITCOIN_NAMES Bitcoin
         (mkMsg [1195487518] None AttrMissing))
  /\ In PATTERN_GREENADDRESS_SIGN_A
       (schema_patterns PATTERN_BIP44 BITCOIN_NAMES Bitcoin).
Proof.
  assert (HA : PATTERN_BIP44 <> PATTERN_GREENADDRESS_SIGN_A) by differ.
  assert (HB : PATTERN_BIP44 <> PATTERN_GREENADDRESS_SIGN_B) by differ.
  destruct (signing_templates_never_selected PATTERN_BIP44 BITCOIN_NAMES
              Bitcoin (mkMsg [1195487518] None AttrMissing) HA HB)
    as [HnA [_ Hset]].
  split; [exact HnA |].
  apply Hset. reflexivity.
Defined.


Lemma bip44_template_selected_iff_witness :
  In PATTERN_BIP44
    (validate_patterns PATTERN_BIP44 BITCOIN_NAMES Dash
       (mkMsg bip44_path None AttrNone))
  /\ ~ In PATTERN_BIP44
         (validate_patterns PATTERN_BIP44 BITCOIN_NAMES Dash
            (mkMsg bip44_path None AttrObject)).
Proof.
  assert (Hother :
    ~ In PATTERN_BIP44
        [PATTERN_BIP45; PATTERN_PURPOSE48; PATTERN_BIP49; PATTERN_BIP84;
         PATTERN_GREENADDRESS_A; PATTERN_GREENADDRESS_B; PATTERN_CASA]).
  { intros Hin. refute_membership. }
  split.
  - apply (bip44_template_selected_iff PATTERN_BIP44 BITCOIN_NAMES Dash
             (mkMsg bip44_path None AttrNone) Hother).
    split; reflexivity.
  - intros Hin.
    apply (bip44_template_selected_iff PATTERN_BIP44 BITCOIN_NAMES Dash
             (mkMsg bip44_path None AttrObject) Hother) in Hin.
    destruct Hin as [_ Hms]. discriminate Hms.
Defined.

Lemma get_coin_by_name_exceptions_witness :
  get_coin_by_name broken_by_name (Some "Bitcoin") = inl (OtherException 2).
Proof.
  apply (proj2 (get_coin_by_name_exceptions broken_by_name)).
  - reflexivity.
  - discriminate.
Defined.

(** The handler raises: [__exit__] swallows the error in the first run and
    lets it through in the second. *)
Lemma wrapper_without_authorization_result_witness :
  result (scenario_run (Some "Dash") None
            (mkScenario (inr 7) (inr tt) (inl (OtherException 4)) (inr true)))
  = inr None
  /\ result (scenario_run (Some "Dash") None
               (mkScenario (inr 7) (inr tt) (inl (OtherException 4))
                  (inr false)))
     = inl (OtherException 4).
Proof.
  split.
  - apply (wrapper_without_authorization_result
             unit (option string) Z Z string (fun m => m) (fun a => a)
             PATTERN_BIP44 BITCOIN_NAMES by_name Scenario scenario_respond
             tt (Some "Dash")
             (mkScenario (inr 7) (inr tt) (inl (OtherException 4)) (inr true))
             Dash 7
             (mkScenario (inr 7) (inr tt) (inl (OtherException 4)) (inr true))
             (mkScenario (inr 7) (inr tt) (inl (OtherException 4)) (inr true))
             (mkScenario (inr 7) (inr tt) (inl (OtherException 4)) (inr true))
             (mkScenario (inr 7) (inr tt) (inl (OtherException 4)) (inr true))
             (inl (OtherException 4)) (inr true));
      reflexivity.
  - apply (wrapper_without_authorization_result
             unit (option string) Z Z string (fun m => m) (fun a => a)
             PATTERN_BIP44 BITCOIN_NAMES by_name Scenario scenario_respond
             tt (Some "Dash")
             (mkScenario (inr 7) (inr tt) (inl (OtherException 4)) (inr false))
             Dash 7
             (mkScenario (inr 7) (inr tt) (inl (OtherException 4)) (inr false))
             (mkScenario (inr 7) (inr tt) (inl (OtherException 4)) (inr false))
             (mkScenario (inr 7) (inr tt) (inl (OtherException 4)) (inr false))
             (mkScenario (inr 7) (inr tt) (inl (OtherException 4)) (inr false))
             (inl (OtherException 4)) (inr false));
      reflexivity.
Defined.

Lemma wrapper_enter_failure_witness :
  result (scenario_run (Some "Dash") None
            (mkScenario (inr 7) (inl (OtherException 3)) (inr "done")
               (inr false)))
  = inl (OtherException 3)
  /\ filter is_func_call
       (log (scenario_run (Some "Dash") None
               (mkScenario (inr 7) (inl (OtherException 3)) (inr "done")
                  (inr false)))) = [].
Proof.
  destruct (wrapper_enter_failure
              unit (option string) Z Z string (fun m => m) (fun a => a)
              PATTERN_BIP44 BITCOIN_NAMES by_name Scenario scenario_respond
              tt (Some "Dash")
              (mkScenario (inr 7) (inl (OtherException 3)) (inr "done")
                 (inr false))
              Dash 7
              (mkScenario (inr 7) (inl (OtherException 3)) (inr "done")
                 (inr false))
              (mkScenario (inr 7) (inl (OtherException 3)) (inr "done")
                 (inr false))
              (OtherException 3) eq_refl eq_refl eq_refl)
    as [Hres [Hlog _]].
  split; [exact Hres |].
  unfold scenario_run, sample_wrapper. rewrite Hlog. reflexivity.
Defined.
